(** * Max6675: a MAX6675 thermocouple driver over SPI (m6675.py)

    A shallow embedding of the driver's three properties ([raw_value],
    [temperature], [is_connected]) and its constructor, together with the
    part of the SPI device base class they call into. *)

From Stdlib Require Import ZArith List Bool Lia QArith.
From Stdlib Require Import Floats.SpecFloat.
Import ListNotations.
Local Open Scope Z_scope.

(** ** Python floats

    A Python [float] is an IEEE 754 binary64 number.  It is modelled by the
    standard library's [spec_float] at precision 53 and maximal exponent
    1024, with round-to-nearest-even arithmetic. *)
Module PyFloat.

Definition prec : Z := 53.
Definition emax : Z := 1024.

Definition float : Type := spec_float.

(** The binary64 number nearest to an integer, infinite when the integer is
    beyond the range of the format. *)
Definition of_int (n : Z) : float := binary_normalize prec emax n 0 false.

(** [float(n)] for a Python [int]: the nearest binary64 number, and
    [OverflowError] (here [None]) when that number is out of range. *)
Definition of_int_checked (n : Z) : option float :=
  match of_int n with
  | S754_infinity _ => None
  | x => Some x
  end.

(** [x * y] on floats. *)
Definition mul (x y : float) : float := SFmul prec emax x y.

(** The literal [0.25], that is 2^52 * 2^-54. *)
Definition quarter : float := S754_finite false 4503599627370496 (-54).

(** The product of an integer in range and a float. *)
Definition int_mul (n : Z) (x : float) : float := mul (of_int n) x.

(** [n * x] for an [int] and a [float]: the integer operand is converted
    first, which may raise [OverflowError], then the two floats are
    multiplied. *)
Definition int_mul_checked (n : Z) (x : float) : option float :=
  match of_int_checked n with
  | None => None
  | Some y => Some (mul y x)
  end.

(** The rational number a finite float stands for. *)
Definition to_Q (x : float) : option Q :=
  match x with
  | S754_zero _ => Some 0%Q
  | S754_finite s m e =>
      let v := match e with
               | Zneg p => Zpos m # (2 ^ p)
               | _ => inject_Z (Zpos m * 2 ^ e)
               end in
      Some (if s then Qopp v else v)
  | _ => None
  end.

End PyFloat.

(** ** Exceptions

    The exceptions an operation of the driver can end with.  What the SPI
    interface raises on its own is a separate type: the driver neither
    catches nor translates it. *)
Inductive spi_exn :=
| SPIIOError (errno : Z)      (* an IOError of the bus: failure, timeout *)
| SPIOtherError (tag : Z).    (* any other exception of the interface *)

Inductive exn :=
| DeviceClosed                (* raised by [_check_open] *)
| ThermocoupleError           (* class ThermocoupleError(IOError) *)
| AttributeError              (* attribute access on [None] *)
| OverflowError               (* an [int] too large to convert to [float] *)
| Transport (e : spi_exn).    (* propagated unchanged from the interface *)

(** [isinstance(e, ThermocoupleError)]. *)
Definition is_ThermocoupleError (e : exn) : bool :=
  match e with
  | ThermocoupleError => true
  | _ => false
  end.

(** [isinstance(e, IOError)]: [ThermocoupleError] derives from [IOError]. *)
Definition is_IOError (e : exn) : bool :=
  match e with
  | ThermocoupleError => true
  | Transport (SPIIOError _) => true
  | _ => false
  end.

(** ** The SPI interface

    The interface object behind [self._spi]: its configured clock mode, the
    answer of the line to each transfer, and the transfers performed so far
    (the number of words asked for by each). *)
Record SPI := mkSPI {
  clock_mode : Z;
  wire : nat -> spi_exn + list Z;
  transfers : list nat
}.

Module SPIInterface.

(** [spi.read(n)]: one transfer on the line.  The answer is the one the
    line gives to this transfer; the transfer is recorded whether it
    succeeds or raises. *)
Definition read (n : nat) (s : SPI) : (spi_exn + list Z) * SPI :=
  (wire s (length (transfers s)),
   mkSPI (clock_mode s) (wire s) (transfers s ++ [n])).

(** [spi.clock_mode = m]. *)
Definition set_clock_mode (m : Z) (s : SPI) : SPI :=
  mkSPI m (wire s) (transfers s).

(** The number of transfers performed so far. *)
Definition transactions (s : SPI) : nat := length (transfers s).

End SPIInterface.

(** ** The device object

    The only attribute the driver touches is [_spi], which is [None] once
    the device has been closed. *)
Record Max6675 := mkMax6675 {
  _spi : option SPI
}.

(** ** Operations as state transformers that may raise

    A Python exception leaves the changes made before it in place, so an
    operation returns the final state next to either an exception or a
    value. *)
Definition M (A : Type) : Type := Max6675 -> (exn + A) * Max6675.

Definition ret {A} (a : A) : M A := fun d => (inr a, d).

Definition raise {A} (e : exn) : M A := fun d => (inl e, d).

Definition bind {A B} (m : M A) (k : A -> M B) : M B :=
  fun d =>
    match m d with
    | (inl e, d') => (inl e, d')
    | (inr a, d') => k a d'
    end.

Declare Scope py_scope.
Delimit Scope py_scope with py.
Notation "x <- m ;; k" := (bind m (fun x => k))
  (at level 61, m at next level, right associativity) : py_scope.
Notation "m ;; k" := (bind m (fun _ => k))
  (at level 61, right associativity) : py_scope.
Local Open Scope py_scope.

(** Truth value of a Python [int] in a condition. *)
Definition truthy (z : Z) : bool := negb (z =? 0).

(** ** The SPI device base class *)
Module SPIDevice.

(** Modelled from the spec: [closed], the base class property that tells
    whether the transport has been released.  The instance is closed
    exactly when it holds no transport. *)
Definition closed (d : Max6675) : bool :=
  match _spi d with
  | None => true
  | Some _ => false
  end.

(** Modelled from the spec: [_check_open], the base class guard called
    first by [raw_value].  It fails with the closed-resource error kind
    when the transport has been released and does nothing otherwise. *)
Definition _check_open : M unit :=
  fun d => if closed d then raise DeviceClosed d else ret tt d.

(** Modelled from the spec: [close], the base class release operation.
    A one-way transition: the transport is dropped. *)
Definition close (d : Max6675) : Max6675 := mkMax6675 None.

(** The words of a list, each shifted to its place, most significant
    first, 8 bits a word. *)
Fixpoint words_or (words : list Z) : Z :=
  match words with
  | [] => 0
  | w :: ws => Z.lor (Z.shiftl w (8 * Z.of_nat (length ws))) (words_or ws)
  end.

(** Modelled from the spec: [_words_to_int], the base class helper that
    combines the words read into one integer, the first word received in
    the highest bits, the result cut to the width of the words read. *)
Definition _words_to_int (words : list Z) : Z :=
  Z.land (words_or words) (2 ^ (8 * Z.of_nat (length words)) - 1).

(** [self._spi.read(n)] on the device. *)
Definition spi_read (n : nat) : M (list Z) :=
  fun d =>
    match _spi d with
    | None => (inl AttributeError, d)
    | Some s =>
        let (r, s') := SPIInterface.read n s in
        match r with
        | inl e => (inl (Transport e), mkMax6675 (Some s'))
        | inr ws => (inr ws, mkMax6675 (Some s'))
        end
    end.

(** [self._spi.clock_mode = m] on the device. *)
Definition set_clock_mode (m : Z) : M unit :=
  fun d =>
    match _spi d with
    | None => (inl AttributeError, d)
    | Some s => (inr tt, mkMax6675 (Some (SPIInterface.set_clock_mode m s)))
    end.

End SPIDevice.
Import SPIDevice.

(** ** The driver *)

(** [Max6675.raw_value]. *)
Definition raw_value : M Z :=
  _check_open ;;
  raw_bytes <- spi_read 2 ;;
  ret (_words_to_int raw_bytes).

(** [Max6675.temperature]. *)
Definition temperature : M PyFloat.float :=
  value <- raw_value ;;
  if truthy (Z.land value 4) then raise ThermocoupleError
  else
    let temp_data := Z.shiftr value 3 in
    match PyFloat.int_mul_checked temp_data PyFloat.quarter with
    | None => raise OverflowError
    | Some celsius => ret celsius
    end.

(** [Max6675.is_connected]. *)
Definition is_connected : M bool :=
  value <- raw_value ;;
  ret (Z.land value 4 =? 0).

(** [Max6675.__init__].  The keyword arguments go to the base class
    constructor as they are; what that constructor does with them is not
    part of the driver, so it is a parameter here. *)
Section Construction.

Variable spi_args : Type.
Variable SPIDevice_init : spi_args -> exn + Max6675.

Definition __init__ (args : spi_args) : exn + Max6675 :=
  match SPIDevice_init args with
  | inl e => inl e
  | inr self =>
      match set_clock_mode 0 self with
      | (inl e, _) => inl e
      | (inr _, self') => inr self'
      end
  end.

End Construction.

(** A device freshly opened on a line with the given answers. *)
Definition open_on (w : nat -> spi_exn + list Z) : Max6675 :=
  mkMax6675 (Some (mkSPI 0 w [])).

(** A line that always answers the same words. *)
Definition steady (ws : list Z) : nat -> spi_exn + list Z := fun _ => inr ws.

(** The transfers recorded on the device's transport, if it is open. *)
Definition device_transfers (d : Max6675) : option (list nat) :=
  option_map transfers (_spi d).

(** Whether an operation ended with the thermocouple exception. *)
Definition raises_fault {A} (r : (exn + A) * Max6675) : bool :=
  match fst r with
  | inl e => is_ThermocoupleError e
  | inr _ => false
  end.

(** Whether [n] quarters of a degree come out of the float product as the
    rational number n/4. *)
Definition exact_quarters (n : Z) : bool :=
  match PyFloat.to_Q (PyFloat.int_mul n PyFloat.quarter) with
  | Some q => Qeq_bool q (n # 4)
  | None => false
  end.

(** Whether the conversion of [n] to a float stays in range. *)
Definition converts (n : Z) : bool :=
  match PyFloat.of_int_checked n with
  | Some _ => true
  | None => false
  end.

(** ** Callers

    A caller that polls the device reads one property after another and
    goes on whatever each read ends with, a value or an exception. *)
Inductive query :=
| Raw                         (* [dev.raw_value] *)
| Temperature                 (* [dev.temperature] *)
| Connected.                  (* [dev.is_connected] *)

(** The device after one property read, its outcome dropped. *)
Definition run_query (q : query) (d : Max6675) : Max6675 :=
  match q with
  | Raw => snd (raw_value d)
  | Temperature => snd (temperature d)
  | Connected => snd (is_connected d)
  end.

(** The device after the reads of a list, in order. *)
Fixpoint run_queries (qs : list query) (d : Max6675) : Max6675 :=
  match qs with
  | [] => d
  | q :: qs' => run_queries qs' (run_query q d)
  end.

(** * Properties *)

(** ** Float arithmetic on the values the driver produces *)

Lemma exact_quarters_below_8192 :
  forallb exact_quarters (map Z.of_nat (seq 0 (Z.to_nat 8192))) = true.
Proof. vm_compute. reflexivity. Qed.

Lemma exact_quarters_13_bits (n : Z) :
  0 <= n < 8192 -> exact_quarters n = true.
Proof.
  intros Hn.
  pose proof exact_quarters_below_8192 as Hall.
  rewrite forallb_forall in Hall.
  apply Hall.
  rewrite <- (Z2Nat.id n) by lia.
  apply in_map, in_seq. split; [lia|].
  cbn [Nat.add]. apply Z2Nat.inj_lt; lia.
Qed.

Lemma int_mul_quarter_value (n : Z) :
  0 <= n < 8192 ->
  exists q, PyFloat.to_Q (PyFloat.int_mul n PyFloat.quarter) = Some q /\
            (q == n # 4)%Q.
Proof.
  intros Hn. apply exact_quarters_13_bits in Hn.
  unfold exact_quarters in Hn.
  destruct (PyFloat.to_Q _) as [q|]; [|discriminate].
  exists q. split; [reflexivity|]. now apply Qeq_bool_iff.
Qed.

Lemma converts_below_8192 :
  forallb converts (map Z.of_nat (seq 0 (Z.to_nat 8192))) = true.
Proof. vm_compute. reflexivity. Qed.

Lemma int_mul_checked_converts (n : Z) (x : PyFloat.float) :
  converts n = true ->
  PyFloat.int_mul_checked n x = Some (PyFloat.int_mul n x).
Proof.
  unfold converts, PyFloat.int_mul_checked, PyFloat.int_mul,
    PyFloat.of_int_checked.
  destruct (PyFloat.of_int n); intros H; try reflexivity; discriminate.
Qed.

Lemma int_mul_checked_13_bits (n : Z) :
  0 <= n < 8192 ->
  PyFloat.int_mul_checked n PyFloat.quarter =
  Some (PyFloat.int_mul n PyFloat.quarter).
Proof.
  intros Hn. apply int_mul_checked_converts.
  pose proof converts_below_8192 as Hall.
  rewrite forallb_forall in Hall. apply Hall.
  rewrite <- (Z2Nat.id n) by lia.
  apply in_map, in_seq. split; [lia|].
  cbn [Nat.add]. apply Z2Nat.inj_lt; lia.
Qed.

Lemma shiftr_3_of_16_bits (v : Z) :
  0 <= v <= 0xFFFF -> 0 <= Z.shiftr v 3 < 8192.
Proof.
  intros Hv. rewrite Z.shiftr_div_pow2 by lia.
  change (2 ^ 3) with 8. split.
  - apply Z.div_pos; lia.
  - apply Z.div_lt_upper_bound; lia.
Qed.

(** ** The operations, step by step *)

Lemma raw_value_closed (d : Max6675) :
  _spi d = None -> raw_value d = (inl DeviceClosed, d).
Proof.
  intros H. destruct d as [o]. cbn in H. subst o. reflexivity.
Qed.

Lemma raw_value_open (d : Max6675) (s : SPI) :
  _spi d = Some s ->
  raw_value d =
    (match wire s (length (transfers s)) with
     | inl e => inl (Transport e)
     | inr ws => inr (_words_to_int ws)
     end,
     mkMax6675 (Some (snd (SPIInterface.read 2 s)))).
Proof.
  intros H. destruct d as [o]. cbn in H. subst o.
  unfold raw_value, bind, _check_open, closed, spi_read, ret. cbn.
  destruct (wire s (length (transfers s))); reflexivity.
Qed.

Lemma raw_value_no_fault (d : Max6675) : raises_fault (raw_value d) = false.
Proof.
  destruct d as [[s|]].
  - rewrite (raw_value_open (mkMax6675 (Some s)) s eq_refl). unfold raises_fault. cbn.
    destruct (wire s (length (transfers s))); reflexivity.
  - now rewrite raw_value_closed.
Qed.

Lemma temperature_of_raw (d d' : Max6675) (v : Z) :
  raw_value d = (inr v, d') ->
  temperature d =
    if truthy (Z.land v 4) then (inl ThermocoupleError, d')
    else
      match PyFloat.int_mul_checked (Z.shiftr v 3) PyFloat.quarter with
      | None => (inl OverflowError, d')
      | Some c => (inr c, d')
      end.
Proof.
  intros H. unfold temperature, bind. rewrite H.
  destruct (truthy (Z.land v 4)); [reflexivity|].
  destruct (PyFloat.int_mul_checked _ _); reflexivity.
Qed.

Lemma temperature_of_raw_16_bits (d d' : Max6675) (v : Z) :
  raw_value d = (inr v, d') ->
  0 <= v <= 0xFFFF ->
  temperature d =
    if truthy (Z.land v 4) then (inl ThermocoupleError, d')
    else (inr (PyFloat.int_mul (Z.shiftr v 3) PyFloat.quarter), d').
Proof.
  intros H Hv. rewrite (temperature_of_raw d d' v H).
  rewrite int_mul_checked_13_bits by now apply shiftr_3_of_16_bits.
  reflexivity.
Qed.

Lemma temperature_of_raw_error (d d' : Max6675) (e : exn) :
  raw_value d = (inl e, d') -> temperature d = (inl e, d').
Proof. intros H. unfold temperature, bind. now rewrite H. Qed.

Lemma is_connected_of_raw (d d' : Max6675) (v : Z) :
  raw_value d = (inr v, d') ->
  is_connected d = (inr (Z.land v 4 =? 0), d').
Proof. intros H. unfold is_connected, bind. now rewrite H. Qed.

Lemma is_connected_of_raw_error (d d' : Max6675) (e : exn) :
  raw_value d = (inl e, d') -> is_connected d = (inl e, d').
Proof. intros H. unfold is_connected, bind. now rewrite H. Qed.

Lemma truthy_false_iff (z : Z) : truthy z = false <-> z = 0.
Proof.
  unfold truthy. destruct (Z.eqb_spec z 0); cbn; split; congruence.
Qed.

Lemma truthy_true_iff (z : Z) : truthy z = true <-> z <> 0.
Proof.
  unfold truthy. destruct (Z.eqb_spec z 0); cbn; split; congruence.
Qed.

(** ** Bytes and bits *)

Lemma testbit_above (a k i : Z) :
  0 <= a < 2 ^ k -> 0 <= k <= i -> Z.testbit a i = false.
Proof.
  intros Ha Hk. rewrite <- (Z.mod_small a (2 ^ k)) by exact Ha.
  now apply Z.mod_pow2_bits_high.
Qed.

Lemma byte_pair_disjoint (b0 b1 : Z) :
  0 <= b1 < 256 -> Z.land (Z.shiftl b0 8) b1 = 0.
Proof.
  intros H1. apply Z.bits_inj'. intros n Hn.
  rewrite Z.land_spec, Z.bits_0.
  destruct (Z.ltb_spec n 8).
  - rewrite Z.shiftl_spec_low by assumption. reflexivity.
  - rewrite (testbit_above b1 8 n) by (change (2 ^ 8) with 256; lia).
    apply andb_false_r.
Qed.

Lemma byte_pair_sum (b0 b1 : Z) :
  0 <= b1 < 256 -> Z.lor (Z.shiftl b0 8) b1 = b0 * 256 + b1.
Proof.
  intros H1.
  rewrite <- Z.lxor_lor by now apply byte_pair_disjoint.
  rewrite <- Z.add_nocarry_lxor by now apply byte_pair_disjoint.
  rewrite Z.shiftl_mul_pow2 by lia. reflexivity.
Qed.

Lemma words_to_int_pair (b0 b1 : Z) :
  0 <= b0 < 256 -> 0 <= b1 < 256 ->
  _words_to_int [b0; b1] = Z.lor (Z.shiftl b0 8) b1.
Proof.
  intros H0 H1. unfold _words_to_int. cbn [words_or length].
  change (8 * Z.of_nat 1) with 8. change (8 * Z.of_nat 0) with 0.
  change (2 ^ (8 * Z.of_nat 2) - 1) with (Z.ones 16).
  rewrite Z.shiftl_0_r, Z.lor_0_r, Z.land_ones by lia.
  rewrite byte_pair_sum by assumption.
  apply Z.mod_small. change (2 ^ 16) with 65536. lia.
Qed.

Lemma bit2_mask (v : Z) : Z.land v 4 = 0 <-> Z.testbit v 2 = false.
Proof.
  split; intros H.
  - assert (Hb : Z.testbit (Z.land v 4) 2 = false) by (rewrite H; apply Z.bits_0).
    rewrite Z.land_spec in Hb. change (Z.testbit 4 2) with true in Hb.
    now rewrite andb_true_r in Hb.
  - apply Z.bits_inj'. intros n Hn. rewrite Z.land_spec, Z.bits_0.
    change 4 with (2 ^ 2). rewrite Z.pow2_bits_eqb by lia.
    destruct (Z.eqb_spec 2 n) as [<-|_].
    + rewrite H. reflexivity.
    + apply andb_false_r.
Qed.

Lemma bit2_mask_set (v : Z) : Z.land v 4 <> 0 <-> Z.testbit v 2 = true.
Proof.
  rewrite bit2_mask. destruct (Z.testbit v 2); split; congruence.
Qed.

(** ** The temperature *)

(** C1: for every 16-bit raw value [v] with bit 2 clear, [temperature]
    succeeds and returns exactly [(v >> 3) * 0.25]: the float returned is
    that product, and the product stands for the rational number
    (v >> 3)/4, so nothing is rounded and nothing is clamped. *)
Theorem temperature_exact (d d' : Max6675) (v : Z) :
  raw_value d = (inr v, d') ->
  0 <= v <= 0xFFFF ->
  Z.land v 4 = 0 ->
  temperature d =
    (inr (PyFloat.int_mul (Z.shiftr v 3) PyFloat.quarter), d') /\
  exists q,
    PyFloat.to_Q (PyFloat.int_mul (Z.shiftr v 3) PyFloat.quarter) = Some q /\
    (q == Z.shiftr v 3 # 4)%Q.
Proof.
  intros Hraw Hv Hbit. split.
  - rewrite (temperature_of_raw_16_bits d d' v Hraw Hv).
    apply truthy_false_iff in Hbit. now rewrite Hbit.
  - apply int_mul_quarter_value, shiftr_3_of_16_bits, Hv.
Qed.

Lemma temperature_exact_witness :
  let d := open_on (steady [0x0C; 0x80]) in
  raw_value d = (inr 0x0C80, snd (raw_value d)) /\
  0 <= 0x0C80 <= 0xFFFF /\
  Z.land 0x0C80 4 = 0 /\
  temperature d =
    (inr (PyFloat.int_mul 400 PyFloat.quarter), snd (raw_value d)) /\
  exists q,
    PyFloat.to_Q (PyFloat.int_mul 400 PyFloat.quarter) = Some q /\
    (q == 400 # 4)%Q.
Proof.
  cbv zeta.
  assert (Hraw : raw_value (open_on (steady [0x0C; 0x80]))
                 = (inr 0x0C80, snd (raw_value (open_on (steady [0x0C; 0x80])))))
    by reflexivity.
  assert (Hv : 0 <= 0x0C80 <= 0xFFFF) by lia.
  assert (Hbit : Z.land 0x0C80 4 = 0) by reflexivity.
  repeat split; try assumption; try lia;
    apply (temperature_exact _ _ _ Hraw Hv Hbit).
Defined.

(** X1: the temperature of a reading without the fault bit is a whole
    number of quarters of a degree, and is at most 1023.75 when bit 15 of
    the reading is clear as well. *)
Lemma temperature_range_15_bits (d d' : Max6675) (v : Z) :
  raw_value d = (inr v, d') ->
  0 <= v < 0x8000 ->
  Z.land v 4 = 0 ->
  exists c q,
    temperature d = (inr c, d') /\ PyFloat.to_Q c = Some q /\
    (q == Z.shiftr v 3 # 4)%Q /\ (0 <= q <= 4095 # 4)%Q.
Proof.
  intros Hraw Hv Hbit.
  assert (Ht : temperature d =
    (inr (PyFloat.int_mul (Z.shiftr v 3) PyFloat.quarter), d')).
  { rewrite (temperature_of_raw_16_bits d d' v Hraw ltac:(lia)).
    apply truthy_false_iff in Hbit. now rewrite Hbit. }
  destruct (int_mul_quarter_value (Z.shiftr v 3)) as (q & Hq & Heq).
  { apply shiftr_3_of_16_bits. lia. }
  exists (PyFloat.int_mul (Z.shiftr v 3) PyFloat.quarter), q.
  repeat split; try assumption.
  - rewrite Heq. unfold Qle. cbn [Qnum Qden].
    assert (0 <= Z.shiftr v 3) by (apply Z.shiftr_nonneg; lia). lia.
  - rewrite Heq. unfold Qle. cbn [Qnum Qden].
    assert (Z.shiftr v 3 < 4096).
    { rewrite Z.shiftr_div_pow2 by lia. change (2 ^ 3) with 8.
      apply Z.div_lt_upper_bound; lia. }
    lia.
Qed.

(** C2: for a raw value [v] with bit 2 set ([v & 4] not zero),
    [temperature] raises [ThermocoupleError] and yields no value; with
    bit 2 clear it does not raise it. *)
Theorem temperature_fault_iff (d d' : Max6675) (v : Z) :
  raw_value d = (inr v, d') ->
  (Z.land v 4 <> 0 <-> temperature d = (inl ThermocoupleError, d')) /\
  (Z.land v 4 = 0 <-> raises_fault (temperature d) = false) /\
  (Z.land v 4 <> 0 <-> Z.testbit v 2 = true).
Proof.
  intros Hraw. rewrite (temperature_of_raw d d' v Hraw).
  split; [|split; [|apply bit2_mask_set]].
  - rewrite <- truthy_true_iff.
    destruct (truthy (Z.land v 4)); [split; congruence|].
    destruct (PyFloat.int_mul_checked _ _); split; congruence.
  - rewrite <- truthy_false_iff.
    destruct (truthy (Z.land v 4)); [cbn; split; congruence|].
    destruct (PyFloat.int_mul_checked _ _); cbn; split; congruence.
Qed.

Lemma temperature_fault_iff_witness :
  let d := open_on (steady [0x00; 0x04]) in
  raw_value d = (inr 4, snd (raw_value d)) /\
  (Z.land 4 4 <> 0 <->
   temperature d = (inl ThermocoupleError, snd (raw_value d))) /\
  (Z.land 4 4 = 0 <-> raises_fault (temperature d) = false) /\
  (Z.land 4 4 <> 0 <-> Z.testbit 4 2 = true).
Proof.
  cbv zeta.
  assert (Hraw : raw_value (open_on (steady [0x00; 0x04]))
                 = (inr 4, snd (raw_value (open_on (steady [0x00; 0x04])))))
    by reflexivity.
  split; [exact Hraw | exact (temperature_fault_iff _ _ _ Hraw)].
Defined.

(** ** The connectivity check *)

Lemma is_connected_no_fault (d : Max6675) :
  raises_fault (is_connected d) = false.
Proof.
  pose proof (raw_value_no_fault d) as H.
  destruct (raw_value d) as [[e|v] d'] eqn:Hraw.
  - now rewrite (is_connected_of_raw_error d d' e Hraw).
  - now rewrite (is_connected_of_raw d d' v Hraw).
Qed.

(** C3: for a raw value [v], [is_connected] returns the boolean
    [(v & 4) == 0], true when bit 2 is clear and false when it is set; this
    is the negation of the condition under which [temperature] raises; and
    [is_connected] never raises the thermocouple exception. *)
Theorem is_connected_bit2 (d d' : Max6675) (v : Z) :
  raw_value d = (inr v, d') ->
  is_connected d = (inr (Z.land v 4 =? 0), d') /\
  (Z.land v 4 =? 0) = negb (Z.testbit v 2) /\
  (Z.land v 4 =? 0) = negb (raises_fault (temperature d)) /\
  (forall d0, raises_fault (is_connected d0) = false).
Proof.
  intros Hraw. split; [now apply is_connected_of_raw|].
  split; [|split; [|exact is_connected_no_fault]].
  - destruct (Z.eqb_spec (Z.land v 4) 0) as [H|H].
    + apply bit2_mask in H. now rewrite H.
    + apply bit2_mask_set in H. now rewrite H.
  - rewrite (temperature_of_raw d d' v Hraw). unfold truthy.
    destruct (Z.land v 4 =? 0); [|reflexivity]. cbn [negb].
    destruct (PyFloat.int_mul_checked _ _); reflexivity.
Qed.

Lemma is_connected_bit2_witness :
  let d := open_on (steady [0x0C; 0x80]) in
  raw_value d = (inr 0x0C80, snd (raw_value d)) /\
  is_connected d = (inr true, snd (raw_value d)).
Proof.
  cbv zeta.
  assert (Hraw : raw_value (open_on (steady [0x0C; 0x80]))
                 = (inr 0x0C80, snd (raw_value (open_on (steady [0x0C; 0x80])))))
    by reflexivity.
  split; [exact Hraw | exact (proj1 (is_connected_bit2 _ _ _ Hraw))].
Defined.

(** C4, on the reading 0xFFFB: all thirteen bits above the status bits are
    set, the shift keeps bit 15, and [temperature] returns 8191 quarters of
    a degree, 2047.75, which is above 1023.75. *)
Theorem temperature_0xFFFB :
  let d := open_on (steady [0xFF; 0xFB]) in
  fst (raw_value d) = inr 0xFFFB /\
  Z.land 0xFFFB 4 = 0 /\
  exists c q,
    fst (temperature d) = inr c /\ PyFloat.to_Q c = Some q /\
    (q == 8191 # 4)%Q /\ ~ (q <= 4095 # 4)%Q.
Proof.
  cbv zeta. split; [reflexivity|]. split; [reflexivity|].
  exists (PyFloat.int_mul 8191 PyFloat.quarter).
  eexists. split; [reflexivity|]. split; [reflexivity|].
  split; [reflexivity|]. vm_compute. intros H. now apply H.
Qed.

(** ** The raw reading *)

(** C5: on an open device, [raw_value] makes one transfer of exactly 2
    words, and when the line answers the bytes [b0; b1] the result is
    [(b0 << 8) | b1]: [b0] in bits 15..8, [b1] in bits 7..0.  Nothing but
    that one transfer is recorded and the result depends on nothing but
    those two bytes. *)
Theorem raw_value_big_endian (s : SPI) (b0 b1 : Z) :
  0 <= b0 < 256 ->
  0 <= b1 < 256 ->
  wire s (length (transfers s)) = inr [b0; b1] ->
  let r := Z.lor (Z.shiftl b0 8) b1 in
  raw_value (mkMax6675 (Some s)) =
    (inr r,
     mkMax6675 (Some (mkSPI (clock_mode s) (wire s) (transfers s ++ [2%nat]))))
  /\ Z.shiftr r 8 = b0 /\ Z.land r 0xFF = b1.
Proof.
  intros H0 H1 Hw r. split; [|split].
  - rewrite (raw_value_open (mkMax6675 (Some s)) s eq_refl), Hw.
    rewrite words_to_int_pair by assumption. reflexivity.
  - unfold r. rewrite byte_pair_sum by assumption.
    rewrite Z.shiftr_div_pow2 by lia. change (2 ^ 8) with 256.
    rewrite Z.div_add_l by lia. rewrite Z.div_small by lia. lia.
  - unfold r. rewrite byte_pair_sum by assumption.
    change 0xFF with (Z.ones 8). rewrite Z.land_ones by lia.
    change (2 ^ 8) with 256. rewrite Z.add_comm, Z.mod_add by lia.
    apply Z.mod_small. lia.
Qed.

Lemma raw_value_big_endian_witness :
  raw_value (open_on (steady [0x12; 0x34])) =
    (inr 0x1234,
     mkMax6675 (Some (mkSPI 0 (steady [0x12; 0x34]) [2%nat])))
  /\ Z.shiftr 0x1234 8 = 0x12 /\ Z.land 0x1234 0xFF = 0x34.
Proof.
  assert (H0 : 0 <= 0x12 < 256) by lia.
  assert (H1 : 0 <= 0x34 < 256) by lia.
  exact (raw_value_big_endian (mkSPI 0 (steady [0x12; 0x34]) []) 0x12 0x34
           H0 H1 eq_refl).
Defined.

(** ** The closed device *)

(** C6: once the transport has been released, [raw_value], [temperature]
    and [is_connected] each raise [DeviceClosed]; the device is left as it
    was, so no transfer takes place and no value is returned.  A device is
    in that state after [close]. *)
Theorem closed_device_raises (d : Max6675) :
  closed d = true ->
  raw_value d = (inl DeviceClosed, d) /\
  temperature d = (inl DeviceClosed, d) /\
  is_connected d = (inl DeviceClosed, d) /\
  (forall d0, closed (close d0) = true).
Proof.
  intros Hc.
  assert (Hraw : raw_value d = (inl DeviceClosed, d)).
  { apply raw_value_closed. unfold closed in Hc.
    destruct (_spi d); [discriminate | reflexivity]. }
  split; [exact Hraw|]. split; [|split].
  - now apply temperature_of_raw_error.
  - now apply is_connected_of_raw_error.
  - reflexivity.
Qed.

Lemma closed_device_raises_witness :
  let d := close (open_on (steady [0x0C; 0x80])) in
  closed d = true /\
  raw_value d = (inl DeviceClosed, d) /\
  temperature d = (inl DeviceClosed, d) /\
  is_connected d = (inl DeviceClosed, d).
Proof.
  cbv zeta.
  pose (H := closed_device_raises
               (close (open_on (steady [0x0C; 0x80]))) eq_refl).
  split; [reflexivity|]. split; [exact (proj1 H)|].
  split; [exact (proj1 (proj2 H)) | exact (proj1 (proj2 (proj2 H)))].
Defined.

(** ** Transfers *)

Lemma temperature_state (s : SPI) :
  snd (temperature (mkMax6675 (Some s))) =
  mkMax6675 (Some (snd (SPIInterface.read 2 s))).
Proof.
  pose proof (raw_value_open (mkMax6675 (Some s)) s eq_refl) as Hraw.
  destruct (wire s (length (transfers s))) as [e|ws].
  - now rewrite (temperature_of_raw_error _ _ _ Hraw).
  - rewrite (temperature_of_raw _ _ _ Hraw).
    destruct (truthy _); [reflexivity|].
    now destruct (PyFloat.int_mul_checked _ _).
Qed.

Lemma is_connected_state (s : SPI) :
  snd (is_connected (mkMax6675 (Some s))) =
  mkMax6675 (Some (snd (SPIInterface.read 2 s))).
Proof.
  pose proof (raw_value_open (mkMax6675 (Some s)) s eq_refl) as Hraw.
  destruct (wire s (length (transfers s))) as [e|ws].
  - now rewrite (is_connected_of_raw_error _ _ _ Hraw).
  - now rewrite (is_connected_of_raw _ _ _ Hraw).
Qed.

(** C7: on an open device every call of [temperature] and every call of
    [is_connected] makes exactly one transfer, of 2 words, and changes
    nothing else; a second call makes a transfer of its own and its result
    is decoded from the answer to that second transfer, not from the first
    reading: the fault when bit 2 of that answer is set, otherwise its
    data bits times 0.25, or [OverflowError] when the answer is too long
    for its data bits to be converted to a float. *)
Theorem one_transfer_per_query (s : SPI) :
  let d := mkMax6675 (Some s) in
  let s1 := snd (SPIInterface.read 2 s) in
  snd (temperature d) = mkMax6675 (Some s1) /\
  snd (is_connected d) = mkMax6675 (Some s1) /\
  transfers s1 = transfers s ++ [2%nat] /\
  SPIInterface.transactions s1 = S (SPIInterface.transactions s) /\
  device_transfers (snd (temperature (snd (temperature d)))) =
    Some (transfers s ++ [2%nat; 2%nat]) /\
  device_transfers (snd (is_connected (snd (is_connected d)))) =
    Some (transfers s ++ [2%nat; 2%nat]) /\
  device_transfers (snd (is_connected (snd (temperature d)))) =
    Some (transfers s ++ [2%nat; 2%nat]) /\
  (forall ws,
     wire s (S (length (transfers s))) = inr ws ->
     fst (is_connected (snd (is_connected d))) =
       inr (Z.land (_words_to_int ws) 4 =? 0) /\
     fst (temperature (snd (temperature d))) =
       if truthy (Z.land (_words_to_int ws) 4) then inl ThermocoupleError
       else
         match PyFloat.int_mul_checked (Z.shiftr (_words_to_int ws) 3)
                 PyFloat.quarter with
         | None => inl OverflowError
         | Some c => inr c
         end).
Proof.
  intros d s1. subst d.
  assert (Hlen : length (transfers s1) = S (length (transfers s))).
  { unfold s1. cbn. rewrite length_app. cbn. lia. }
  split; [apply temperature_state|].
  split; [apply is_connected_state|].
  split; [reflexivity|]. split; [exact Hlen|].
  rewrite temperature_state, is_connected_state. fold s1.
  rewrite temperature_state, !is_connected_state.
  repeat split.
  - unfold device_transfers. cbn. now rewrite <- app_assoc.
  - unfold device_transfers. cbn. now rewrite <- app_assoc.
  - unfold device_transfers. cbn. now rewrite <- app_assoc.
  - pose proof (raw_value_open (mkMax6675 (Some s1)) s1 eq_refl) as Hraw.
    rewrite Hlen in Hraw. change (wire s1) with (wire s) in Hraw.
    rewrite H in Hraw.
    now rewrite (is_connected_of_raw _ _ _ Hraw).
  - pose proof (raw_value_open (mkMax6675 (Some s1)) s1 eq_refl) as Hraw.
    rewrite Hlen in Hraw. change (wire s1) with (wire s) in Hraw.
    rewrite H in Hraw.
    rewrite (temperature_of_raw _ _ _ Hraw).
    destruct (truthy _); [reflexivity|].
    now destruct (PyFloat.int_mul_checked _ _).
Qed.

Lemma one_transfer_per_query_witness :
  let w := fun k : nat => if Nat.eqb k 0 then inr [0x0C; 0x80] else inr [0x00; 0x04] in
  let d := open_on w in
  w 1%nat = inr [0x00; 0x04] /\
  fst (is_connected d) = inr true /\
  fst (is_connected (snd (is_connected d))) = inr false /\
  fst (temperature (snd (temperature d))) = inl ThermocoupleError.
Proof.
  cbv zeta.
  pose (w := fun k : nat =>
               if Nat.eqb k 0 then inr [0x0C; 0x80] else inr [0x00; 0x04]
               : spi_exn + list Z).
  pose (H := proj2 (proj2 (proj2 (proj2 (proj2 (proj2 (proj2
               (one_transfer_per_query (mkSPI 0 w []))))))))
               [0x00; 0x04] eq_refl).
  split; [reflexivity|]. split; [reflexivity|].
  split; [exact (proj1 H) | exact (proj2 H)].
Defined.

(** ** Construction *)

(** C8: whatever the keyword arguments and whatever the base class
    constructor makes of them, a constructed device holds a transport in
    clock mode 0; and construction succeeds whenever the base class
    constructor yields a device with a transport, changing nothing of it
    but the mode. *)
Theorem init_sets_clock_mode_0
    (spi_args : Type) (SPIDevice_init : spi_args -> exn + Max6675)
    (args : spi_args) :
  (forall self,
     __init__ spi_args SPIDevice_init args = inr self ->
     exists s, _spi self = Some s /\ clock_mode s = 0) /\
  (forall s0,
     SPIDevice_init args = inr (mkMax6675 (Some s0)) ->
     __init__ spi_args SPIDevice_init args =
       inr (mkMax6675 (Some (mkSPI 0 (wire s0) (transfers s0))))).
Proof.
  unfold __init__, set_clock_mode. split.
  - intros self H.
    destruct (SPIDevice_init args) as [e|[[s0|]]]; cbn in H; try discriminate.
    injection H as <-. eexists. split; reflexivity.
  - intros s0 H. now rewrite H.
Qed.

Lemma init_sets_clock_mode_0_witness :
  let base := fun mode : Z =>
    inr (mkMax6675 (Some (mkSPI mode (steady [0x0C; 0x80]) []))) : exn + Max6675 in
  __init__ Z base 3 = inr (open_on (steady [0x0C; 0x80])) /\
  exists s, _spi (open_on (steady [0x0C; 0x80])) = Some s /\ clock_mode s = 0.
Proof.
  cbv zeta.
  pose (base := fun mode : Z =>
    inr (mkMax6675 (Some (mkSPI mode (steady [0x0C; 0x80]) [])))
    : exn + Max6675).
  split; [reflexivity|].
  exact (proj1 (init_sets_clock_mode_0 Z base 3)
           (open_on (steady [0x0C; 0x80])) eq_refl).
Defined.

(** ** The thermocouple exception *)

(** C9: [ThermocoupleError] is told apart from every exception of the
    transport by its class (it is an [IOError] itself, so the test is on
    the subclass); [raw_value] and [is_connected] never raise it;
    [temperature] raises it only after a reading was acquired and bit 2 of
    that reading is set, and passes an exception of the reading on
    unchanged. *)
Theorem thermocouple_error_distinguished :
  (forall e, is_ThermocoupleError (Transport e) = false) /\
  is_ThermocoupleError ThermocoupleError = true /\
  is_ThermocoupleError DeviceClosed = false /\
  is_IOError ThermocoupleError = true /\
  (forall d, raises_fault (raw_value d) = false) /\
  (forall d, raises_fault (is_connected d) = false) /\
  (forall d d',
     temperature d = (inl ThermocoupleError, d') <->
     exists v, raw_value d = (inr v, d') /\ Z.testbit v 2 = true) /\
  (forall d d' e,
     raw_value d = (inl e, d') -> temperature d = (inl e, d')).
Proof.
  split; [reflexivity|]. split; [reflexivity|]. split; [reflexivity|].
  split; [reflexivity|].
  split; [exact raw_value_no_fault|]. split; [exact is_connected_no_fault|].
  split; [|exact temperature_of_raw_error].
  intros d d'. split.
  - intros Ht.
    pose proof (raw_value_no_fault d) as Hnf.
    destruct (raw_value d) as [[e|v] d1] eqn:Hraw.
    + rewrite (temperature_of_raw_error d d1 e Hraw) in Ht.
      injection Ht as -> ->. discriminate Hnf.
    + rewrite (temperature_of_raw d d1 v Hraw) in Ht.
      destruct (truthy (Z.land v 4)) eqn:Hb;
        [|destruct (PyFloat.int_mul_checked _ _); discriminate].
      injection Ht as ->. exists v. split; [reflexivity|].
      now apply bit2_mask_set, truthy_true_iff.
  - intros (v & Hraw & Hb).
    rewrite (temperature_of_raw d d' v Hraw).
    apply bit2_mask_set, truthy_true_iff in Hb. now rewrite Hb.
Qed.

Lemma thermocouple_error_distinguished_witness :
  let d := open_on (steady [0x00; 0x04]) in
  temperature d = (inl ThermocoupleError, snd (raw_value d)).
Proof.
  cbv zeta.
  apply (proj1 (proj2 (proj2 (proj2 (proj2 (proj2 (proj2
           thermocouple_error_distinguished))))))).
  exists 4. split; reflexivity.
Defined.

(** C10: when [temperature] raises [ThermocoupleError] the device was open
    and one transfer of 2 words has been made: the reading came first, the
    check of bit 2 after it, and the device is left in the state that
    follows that one transfer. *)
Theorem fault_after_one_transfer (d d' : Max6675) :
  temperature d = (inl ThermocoupleError, d') ->
  exists s ws,
    _spi d = Some s /\
    wire s (length (transfers s)) = inr ws /\
    Z.land (_words_to_int ws) 4 <> 0 /\
    d' = mkMax6675 (Some (snd (SPIInterface.read 2 s))) /\
    device_transfers d' = Some (transfers s ++ [2%nat]) /\
    device_transfers d' <> device_transfers d.
Proof.
  intros Ht. destruct d as [[s|]].
  - pose proof (raw_value_open (mkMax6675 (Some s)) s eq_refl) as Hraw.
    destruct (wire s (length (transfers s))) as [e|ws] eqn:Hw.
    + rewrite (temperature_of_raw_error _ _ _ Hraw) in Ht. discriminate.
    + rewrite (temperature_of_raw _ _ _ Hraw) in Ht.
      destruct (truthy (Z.land (_words_to_int ws) 4)) eqn:Hb;
        [|destruct (PyFloat.int_mul_checked _ _); discriminate].
      injection Ht as <-. exists s, ws.
      split; [reflexivity|]. split; [exact Hw|].
      split; [now apply truthy_true_iff|]. split; [reflexivity|].
      split; [reflexivity|].
      unfold device_transfers. cbn. intros Heq. injection Heq as Heq.
      apply (f_equal (@length nat)) in Heq. rewrite length_app in Heq.
      cbn in Heq. lia.
  - rewrite (temperature_of_raw_error _ _ _
               (raw_value_closed (mkMax6675 None) eq_refl)) in Ht.
    discriminate.
Qed.

Lemma fault_after_one_transfer_witness :
  let d := open_on (steady [0x00; 0x04]) in
  temperature d = (inl ThermocoupleError, snd (temperature d)) /\
  exists s ws,
    _spi d = Some s /\
    wire s (length (transfers s)) = inr ws /\
    Z.land (_words_to_int ws) 4 <> 0 /\
    snd (temperature d) = mkMax6675 (Some (snd (SPIInterface.read 2 s))) /\
    device_transfers (snd (temperature d)) = Some (transfers s ++ [2%nat]) /\
    device_transfers (snd (temperature d)) <> device_transfers d.
Proof.
  cbv zeta. split; [reflexivity|].
  exact (fault_after_one_transfer (open_on (steady [0x00; 0x04]))
           (snd (temperature (open_on (steady [0x00; 0x04])))) eq_refl).
Defined.

(** * Further properties of the driver *)

(** ** Helpers *)

Lemma temperature_quarters (d d' : Max6675) (v : Z) :
  raw_value d = (inr v, d') ->
  0 <= v <= 0xFFFF ->
  Z.land v 4 = 0 ->
  exists q,
    temperature d =
      (inr (PyFloat.int_mul (Z.shiftr v 3) PyFloat.quarter), d') /\
    PyFloat.to_Q (PyFloat.int_mul (Z.shiftr v 3) PyFloat.quarter) = Some q /\
    (q == Z.shiftr v 3 # 4)%Q.
Proof.
  intros Hraw Hv Hbit.
  destruct (int_mul_quarter_value (Z.shiftr v 3)) as (q & Hq & Heq).
  { now apply shiftr_3_of_16_bits. }
  exists q. split; [|split; assumption].
  rewrite (temperature_of_raw_16_bits d d' v Hraw Hv).
  apply truthy_false_iff in Hbit. now rewrite Hbit.
Qed.

Lemma quarters_le (n m : Z) : (n # 4 <= m # 4)%Q <-> n <= m.
Proof. unfold Qle. cbn [Qnum Qden]. lia. Qed.

Lemma quarters_eq (n m : Z) : (n # 4 == m # 4)%Q <-> n = m.
Proof. unfold Qeq. cbn [Qnum Qden]. lia. Qed.

Lemma shiftr_3_le (v1 v2 : Z) : v1 <= v2 -> Z.shiftr v1 3 <= Z.shiftr v2 3.
Proof.
  intros H. rewrite !Z.shiftr_div_pow2 by lia.
  apply Z.div_le_mono; [reflexivity | exact H].
Qed.

Lemma shiftr_3_add_8 (v : Z) : Z.shiftr (v + 8) 3 = Z.shiftr v 3 + 1.
Proof.
  rewrite !Z.shiftr_div_pow2 by lia. change (2 ^ 3) with 8.
  replace (v + 8) with (v + 1 * 8) by lia.
  now rewrite Z.div_add by lia.
Qed.

Lemma bit2_add_8 (v : Z) : Z.land (v + 8) 4 = 0 <-> Z.land v 4 = 0.
Proof.
  rewrite !bit2_mask, !Z.testbit_false by lia.
  change (2 ^ 2) with 4.
  replace (v + 8) with (v + 2 * 4) by lia.
  rewrite Z.div_add by lia.
  replace (v / 4 + 2) with (v / 4 + 1 * 2) by lia.
  now rewrite Z.mod_add by lia.
Qed.

Lemma bit15_of_16_bits (v : Z) :
  0 <= v <= 0xFFFF -> (Z.testbit v 15 = false <-> v < 0x8000).
Proof.
  intros Hv. rewrite Z.testbit_false by lia.
  change (2 ^ 15) with 32768.
  assert (H0 : 0 <= v / 32768) by (apply Z.div_pos; lia).
  assert (H2 : v / 32768 < 2) by (apply Z.div_lt_upper_bound; lia).
  split; intros H.
  - assert (Hz : v / 32768 = 0).
    { rewrite <- (Z.mod_small (v / 32768) 2) by lia. exact H. }
    apply Z.div_small_iff in Hz; lia.
  - rewrite Z.div_small by lia. reflexivity.
Qed.

(** ** The range and the order of temperatures *)

Lemma temperature_range_15_bits_witness :
  let d := open_on (steady [0x7F; 0xF8]) in
  raw_value d = (inr 0x7FF8, snd (raw_value d)) /\
  exists c q,
    temperature d = (inr c, snd (raw_value d)) /\ PyFloat.to_Q c = Some q /\
    (q == Z.shiftr 0x7FF8 3 # 4)%Q /\ (0 <= q <= 4095 # 4)%Q.
Proof.
  cbv zeta.
  assert (Hraw : raw_value (open_on (steady [0x7F; 0xF8]))
                 = (inr 0x7FF8, snd (raw_value (open_on (steady [0x7F; 0xF8])))))
    by reflexivity.
  assert (Hv : 0 <= 0x7FF8 < 0x8000) by lia.
  split; [exact Hraw|].
  exact (temperature_range_15_bits _ _ _ Hraw Hv eq_refl).
Defined.

(** X2: for a 16-bit reading without the fault bit the temperature is a
    finite number between 0 and 2047.75, and it is above 1023.75 exactly
    when bit 15 of the reading is set: the shift keeps that bit. *)
Theorem temperature_above_range_iff_bit15 (d d' : Max6675) (v : Z) :
  raw_value d = (inr v, d') ->
  0 <= v <= 0xFFFF ->
  Z.land v 4 = 0 ->
  exists c q,
    temperature d = (inr c, d') /\ PyFloat.to_Q c = Some q /\
    (0 <= q <= 8191 # 4)%Q /\
    (~ (q <= 4095 # 4)%Q <-> Z.testbit v 15 = true).
Proof.
  intros Hraw Hv Hbit.
  destruct (temperature_quarters d d' v Hraw Hv Hbit) as (q & Ht & Hq & Heq).
  exists (PyFloat.int_mul (Z.shiftr v 3) PyFloat.quarter), q.
  split; [exact Ht|]. split; [exact Hq|].
  pose proof (shiftr_3_of_16_bits v Hv) as Hn.
  rewrite Heq. split.
  - split.
    + unfold Qle. cbn [Qnum Qden]. lia.
    + apply quarters_le. lia.
  - rewrite quarters_le.
    pose proof (bit15_of_16_bits v Hv) as H15.
    assert (Hdiv : Z.shiftr v 3 <= 4095 <-> v < 0x8000).
    { rewrite Z.shiftr_div_pow2 by lia. change (2 ^ 3) with 8. split; intros H.
      - destruct (Z.lt_ge_cases v 0x8000) as [|Hge]; [assumption|].
        apply (Z.div_le_mono _ _ 8) in Hge; [|lia].
        change (0x8000 / 8) with 4096 in Hge. lia.
      - assert (v / 8 < 4096) by (apply Z.div_lt_upper_bound; lia). lia. }
    rewrite Hdiv, <- H15. destruct (Z.testbit v 15); split; congruence.
Qed.

Lemma temperature_above_range_iff_bit15_witness :
  let d := open_on (steady [0x80; 0x00]) in
  raw_value d = (inr 0x8000, snd (raw_value d)) /\
  exists c q,
    temperature d = (inr c, snd (raw_value d)) /\ PyFloat.to_Q c = Some q /\
    (0 <= q <= 8191 # 4)%Q /\
    (~ (q <= 4095 # 4)%Q <-> Z.testbit 0x8000 15 = true).
Proof.
  cbv zeta.
  assert (Hraw : raw_value (open_on (steady [0x80; 0x00]))
                 = (inr 0x8000, snd (raw_value (open_on (steady [0x80; 0x00])))))
    by reflexivity.
  assert (Hv : 0 <= 0x8000 <= 0xFFFF) by lia.
  split; [exact Hraw|].
  exact (temperature_above_range_iff_bit15 _ _ _ Hraw Hv eq_refl).
Defined.

(** X3: the temperature grows with the reading: of two 16-bit readings
    without the fault bit, the larger one never gives the lower
    temperature. *)
Theorem temperature_monotone (d1 d1' d2 d2' : Max6675) (v1 v2 : Z) :
  raw_value d1 = (inr v1, d1') ->
  raw_value d2 = (inr v2, d2') ->
  0 <= v1 -> v1 <= v2 -> v2 <= 0xFFFF ->
  Z.land v1 4 = 0 ->
  Z.land v2 4 = 0 ->
  exists c1 c2 q1 q2,
    temperature d1 = (inr c1, d1') /\ temperature d2 = (inr c2, d2') /\
    PyFloat.to_Q c1 = Some q1 /\ PyFloat.to_Q c2 = Some q2 /\
    (q1 <= q2)%Q.
Proof.
  intros Hr1 Hr2 H0 H12 H2 Hb1 Hb2.
  destruct (temperature_quarters d1 d1' v1 Hr1 ltac:(lia) Hb1)
    as (q1 & Ht1 & Hq1 & He1).
  destruct (temperature_quarters d2 d2' v2 Hr2 ltac:(lia) Hb2)
    as (q2 & Ht2 & Hq2 & He2).
  do 2 eexists. exists q1, q2.
  split; [exact Ht1|]. split; [exact Ht2|].
  split; [exact Hq1|]. split; [exact Hq2|].
  rewrite He1, He2. apply quarters_le. now apply shiftr_3_le.
Qed.

Lemma temperature_monotone_witness :
  let d1 := open_on (steady [0x0C; 0x80]) in
  let d2 := open_on (steady [0x19; 0x00]) in
  exists c1 c2 q1 q2,
    temperature d1 = (inr c1, snd (raw_value d1)) /\
    temperature d2 = (inr c2, snd (raw_value d2)) /\
    PyFloat.to_Q c1 = Some q1 /\ PyFloat.to_Q c2 = Some q2 /\
    (q1 <= q2)%Q.
Proof.
  cbv zeta.
  assert (Hr1 : raw_value (open_on (steady [0x0C; 0x80]))
                = (inr 0x0C80, snd (raw_value (open_on (steady [0x0C; 0x80])))))
    by reflexivity.
  assert (Hr2 : raw_value (open_on (steady [0x19; 0x00]))
                = (inr 0x1900, snd (raw_value (open_on (steady [0x19; 0x00])))))
    by reflexivity.
  assert (H0 : 0 <= 0x0C80) by lia.
  assert (H12 : 0x0C80 <= 0x1900) by lia.
  assert (H2 : 0x1900 <= 0xFFFF) by lia.
  exact (temperature_monotone _ _ _ _ _ _ Hr1 Hr2 H0 H12 H2 eq_refl eq_refl).
Defined.

(** X4: one step of the data bits is a quarter of a degree: when a 16-bit
    reading [v] has no fault bit, neither has [v + 8], and its temperature
    is higher by exactly 0.25. *)
Theorem temperature_resolution (d1 d1' d2 d2' : Max6675) (v : Z) :
  raw_value d1 = (inr v, d1') ->
  raw_value d2 = (inr (v + 8), d2') ->
  0 <= v -> v + 8 <= 0xFFFF ->
  Z.land v 4 = 0 ->
  exists c1 c2 q1 q2,
    temperature d1 = (inr c1, d1') /\ temperature d2 = (inr c2, d2') /\
    PyFloat.to_Q c1 = Some q1 /\ PyFloat.to_Q c2 = Some q2 /\
    (q2 == q1 + (1 # 4))%Q.
Proof.
  intros Hr1 Hr2 H0 H2 Hb1.
  assert (Hb2 : Z.land (v + 8) 4 = 0) by now apply bit2_add_8.
  destruct (temperature_quarters d1 d1' v Hr1 ltac:(lia) Hb1)
    as (q1 & Ht1 & Hq1 & He1).
  destruct (temperature_quarters d2 d2' (v + 8) Hr2 ltac:(lia) Hb2)
    as (q2 & Ht2 & Hq2 & He2).
  do 2 eexists. exists q1, q2.
  split; [exact Ht1|]. split; [exact Ht2|].
  split; [exact Hq1|]. split; [exact Hq2|].
  rewrite He1, He2, shiftr_3_add_8.
  unfold Qeq, Qplus. cbn [Qnum Qden]. lia.
Qed.

Lemma temperature_resolution_witness :
  let d1 := open_on (steady [0x0C; 0x80]) in
  let d2 := open_on (steady [0x0C; 0x88]) in
  exists c1 c2 q1 q2,
    temperature d1 = (inr c1, snd (raw_value d1)) /\
    temperature d2 = (inr c2, snd (raw_value d2)) /\
    PyFloat.to_Q c1 = Some q1 /\ PyFloat.to_Q c2 = Some q2 /\
    (q2 == q1 + (1 # 4))%Q.
Proof.
  cbv zeta.
  assert (Hr1 : raw_value (open_on (steady [0x0C; 0x80]))
                = (inr 0x0C80, snd (raw_value (open_on (steady [0x0C; 0x80])))))
    by reflexivity.
  assert (Hr2 : raw_value (open_on (steady [0x0C; 0x88]))
                = (inr (0x0C80 + 8),
                   snd (raw_value (open_on (steady [0x0C; 0x88])))))
    by reflexivity.
  assert (H0 : 0 <= 0x0C80) by lia.
  assert (H2 : 0x0C80 + 8 <= 0xFFFF) by lia.
  exact (temperature_resolution _ _ _ _ _ Hr1 Hr2 H0 H2 eq_refl).
Defined.

(** ** Which bits of the reading matter *)

Lemma bit2_of_shiftr_2 (v : Z) : Z.testbit v 2 = Z.testbit (Z.shiftr v 2) 0.
Proof. rewrite Z.shiftr_spec by lia. reflexivity. Qed.

Lemma mask_eqb_of_bit2 (v : Z) : (Z.land v 4 =? 0) = negb (Z.testbit v 2).
Proof.
  destruct (Z.eqb_spec (Z.land v 4) 0) as [H|H].
  - apply bit2_mask in H. now rewrite H.
  - apply bit2_mask_set in H. now rewrite H.
Qed.

(** X5: bits 0 and 1 of the reading play no part: two readings that agree
    on every bit from bit 2 upwards give the same outcome of [temperature]
    (the same value or the same exception) and the same answer of
    [is_connected]. *)
Theorem status_bits_0_1_ignored (d1 d1' d2 d2' : Max6675) (v1 v2 : Z) :
  raw_value d1 = (inr v1, d1') ->
  raw_value d2 = (inr v2, d2') ->
  Z.shiftr v1 2 = Z.shiftr v2 2 ->
  fst (temperature d1) = fst (temperature d2) /\
  fst (is_connected d1) = fst (is_connected d2).
Proof.
  intros Hr1 Hr2 Hsh.
  assert (Hbit : Z.testbit v1 2 = Z.testbit v2 2).
  { now rewrite !bit2_of_shiftr_2, Hsh. }
  assert (Hdata : Z.shiftr v1 3 = Z.shiftr v2 3).
  { change 3 with (2 + 1).
    rewrite <- !Z.shiftr_shiftr by lia. now rewrite Hsh. }
  rewrite (temperature_of_raw _ _ _ Hr1), (temperature_of_raw _ _ _ Hr2).
  rewrite (is_connected_of_raw _ _ _ Hr1), (is_connected_of_raw _ _ _ Hr2).
  unfold truthy. rewrite !mask_eqb_of_bit2, Hbit, Hdata.
  split; [|reflexivity].
  destruct (Z.testbit v2 2); [reflexivity|]. cbn [negb].
  now destruct (PyFloat.int_mul_checked _ _).
Qed.

Lemma status_bits_0_1_ignored_witness :
  let d1 := open_on (steady [0x0C; 0x80]) in
  let d2 := open_on (steady [0x0C; 0x83]) in
  fst (temperature d1) = fst (temperature d2) /\
  fst (is_connected d1) = fst (is_connected d2).
Proof.
  cbv zeta.
  assert (Hr1 : raw_value (open_on (steady [0x0C; 0x80]))
                = (inr 0x0C80, snd (raw_value (open_on (steady [0x0C; 0x80])))))
    by reflexivity.
  assert (Hr2 : raw_value (open_on (steady [0x0C; 0x83]))
                = (inr 0x0C83, snd (raw_value (open_on (steady [0x0C; 0x83])))))
    by reflexivity.
  exact (status_bits_0_1_ignored _ _ _ _ _ _ Hr1 Hr2 eq_refl).
Defined.

(** X6: the temperature loses nothing of the data bits: two 16-bit readings
    without the fault bit that give the same temperature have the same
    bits from bit 3 upwards. *)
Theorem temperature_injective (d1 d1' d2 d2' : Max6675) (v1 v2 : Z)
    (c : PyFloat.float) :
  raw_value d1 = (inr v1, d1') ->
  raw_value d2 = (inr v2, d2') ->
  0 <= v1 <= 0xFFFF ->
  0 <= v2 <= 0xFFFF ->
  temperature d1 = (inr c, d1') ->
  temperature d2 = (inr c, d2') ->
  Z.shiftr v1 3 = Z.shiftr v2 3.
Proof.
  intros Hr1 Hr2 Hv1 Hv2 Ht1 Ht2.
  rewrite (temperature_of_raw_16_bits _ _ _ Hr1 Hv1) in Ht1.
  rewrite (temperature_of_raw_16_bits _ _ _ Hr2 Hv2) in Ht2.
  destruct (truthy (Z.land v1 4)); [discriminate|].
  destruct (truthy (Z.land v2 4)); [discriminate|].
  injection Ht1 as Hc1. injection Ht2 as Hc2.
  destruct (int_mul_quarter_value (Z.shiftr v1 3)) as (q1 & Hq1 & He1).
  { now apply shiftr_3_of_16_bits. }
  destruct (int_mul_quarter_value (Z.shiftr v2 3)) as (q2 & Hq2 & He2).
  { now apply shiftr_3_of_16_bits. }
  rewrite Hc1 in Hq1. rewrite Hc2 in Hq2.
  assert (Hq : q1 = q2) by congruence. subst q2.
  apply quarters_eq. now rewrite <- He1, <- He2.
Qed.

Lemma temperature_injective_witness :
  let d1 := open_on (steady [0x0C; 0x80]) in
  let d2 := open_on (steady [0x0C; 0x83]) in
  fst (raw_value d1) = inr 0x0C80 /\
  fst (raw_value d2) = inr 0x0C83 /\
  fst (temperature d1) = fst (temperature d2) /\
  Z.shiftr 0x0C80 3 = Z.shiftr 0x0C83 3.
Proof.
  cbv zeta.
  assert (Hv1 : 0 <= 0x0C80 <= 0xFFFF) by lia.
  assert (Hv2 : 0 <= 0x0C83 <= 0xFFFF) by lia.
  split; [reflexivity|]. split; [reflexivity|]. split; [reflexivity|].
  exact (temperature_injective
           (open_on (steady [0x0C; 0x80]))
           (snd (raw_value (open_on (steady [0x0C; 0x80]))))
           (open_on (steady [0x0C; 0x83]))
           (snd (raw_value (open_on (steady [0x0C; 0x83]))))
           0x0C80 0x0C83 (PyFloat.int_mul 400 PyFloat.quarter)
           eq_refl eq_refl Hv1 Hv2 eq_refl eq_refl).
Defined.

(** ** From the bytes on the line to the outcome *)

Lemma byte_pair_bit2 (b0 b1 : Z) :
  Z.testbit (Z.lor (Z.shiftl b0 8) b1) 2 = Z.testbit b1 2.
Proof.
  rewrite Z.lor_spec, Z.shiftl_spec_low by lia. reflexivity.
Qed.

Lemma byte_pair_data (b0 b1 : Z) :
  0 <= b1 < 256 ->
  Z.shiftr (Z.lor (Z.shiftl b0 8) b1) 3 = 32 * b0 + Z.shiftr b1 3.
Proof.
  intros H1. rewrite byte_pair_sum by assumption.
  rewrite !Z.shiftr_div_pow2 by lia. change (2 ^ 3) with 8.
  replace (b0 * 256 + b1) with (b1 + (32 * b0) * 8) by lia.
  rewrite Z.div_add by lia. lia.
Qed.

(** X7: on an open device whose line answers the bytes [b0; b1], the fault
    flag is bit 2 of the second byte: [is_connected] returns its negation
    and [temperature] raises [ThermocoupleError] when it is set; when it is
    clear [temperature] returns 32 * b0 + (b1 >> 3) quarters of a degree,
    exactly.  Either way one transfer of 2 words has been made. *)
Theorem outcome_of_bytes (s : SPI) (b0 b1 : Z) :
  0 <= b0 < 256 ->
  0 <= b1 < 256 ->
  wire s (length (transfers s)) = inr [b0; b1] ->
  let d := mkMax6675 (Some s) in
  let d' := mkMax6675 (Some (snd (SPIInterface.read 2 s))) in
  let n := 32 * b0 + Z.shiftr b1 3 in
  is_connected d = (inr (negb (Z.testbit b1 2)), d') /\
  temperature d =
    (if Z.testbit b1 2 then inl ThermocoupleError
     else inr (PyFloat.int_mul n PyFloat.quarter), d') /\
  exists q,
    PyFloat.to_Q (PyFloat.int_mul n PyFloat.quarter) = Some q /\
    (q == n # 4)%Q.
Proof.
  intros H0 H1 Hw d d' n.
  pose proof (raw_value_open d s eq_refl) as Hraw.
  rewrite Hw, words_to_int_pair in Hraw by assumption.
  fold d' in Hraw.
  split; [|split].
  - rewrite (is_connected_of_raw _ _ _ Hraw).
    now rewrite mask_eqb_of_bit2, byte_pair_bit2.
  - rewrite (temperature_of_raw_16_bits _ _ _ Hraw).
    + unfold truthy.
      rewrite mask_eqb_of_bit2, byte_pair_bit2, negb_involutive.
      rewrite byte_pair_data by assumption. fold n.
      now destruct (Z.testbit b1 2).
    + rewrite byte_pair_sum by assumption. lia.
  - apply int_mul_quarter_value. unfold n.
    assert (0 <= Z.shiftr b1 3 < 32).
    { rewrite Z.shiftr_div_pow2 by lia. change (2 ^ 3) with 8. split.
      - apply Z.div_pos; lia.
      - apply Z.div_lt_upper_bound; lia. }
    lia.
Qed.

Lemma outcome_of_bytes_witness :
  let d := open_on (steady [0x0C; 0x80]) in
  let d' := mkMax6675 (Some (mkSPI 0 (steady [0x0C; 0x80]) [2%nat])) in
  is_connected d = (inr true, d') /\
  temperature d = (inr (PyFloat.int_mul 400 PyFloat.quarter), d') /\
  exists q,
    PyFloat.to_Q (PyFloat.int_mul 400 PyFloat.quarter) = Some q /\
    (q == 400 # 4)%Q.
Proof.
  cbv zeta.
  assert (H0 : 0 <= 0x0C < 256) by lia.
  assert (H1 : 0 <= 0x80 < 256) by lia.
  exact (outcome_of_bytes (mkSPI 0 (steady [0x0C; 0x80]) []) 0x0C 0x80
           H0 H1 eq_refl).
Defined.

(** ** Exceptions of the transport and of the guard *)

(** X8: an exception raised by the line during the transfer comes out of
    [raw_value], [temperature] and [is_connected] unchanged, neither
    turned into a thermocouple fault nor into an answer [False]; the
    transfer counts, the device stays open, and the next read gets the
    next answer of the line. *)
Theorem transport_error_propagates (s : SPI) (e : spi_exn) :
  wire s (length (transfers s)) = inl e ->
  let d := mkMax6675 (Some s) in
  let d' := mkMax6675 (Some (snd (SPIInterface.read 2 s))) in
  raw_value d = (inl (Transport e), d') /\
  temperature d = (inl (Transport e), d') /\
  is_connected d = (inl (Transport e), d') /\
  closed d' = false /\
  (forall ws,
     wire s (S (length (transfers s))) = inr ws ->
     fst (raw_value d') = inr (_words_to_int ws)).
Proof.
  intros Hw d d'.
  pose proof (raw_value_open d s eq_refl) as Hraw.
  rewrite Hw in Hraw. fold d' in Hraw.
  split; [exact Hraw|]. split; [|split; [|split]].
  - now apply temperature_of_raw_error.
  - now apply is_connected_of_raw_error.
  - reflexivity.
  - intros ws Hws.
    rewrite (raw_value_open d' (snd (SPIInterface.read 2 s)) eq_refl).
    cbn [fst snd SPIInterface.read wire transfers].
    rewrite length_app, Nat.add_comm. cbn [length Nat.add].
    now rewrite Hws.
Qed.

Lemma transport_error_propagates_witness :
  let w := fun k : nat =>
    if Nat.eqb k 0 then inl (SPIIOError 5) else inr [0x0C; 0x80] in
  let d := open_on w in
  temperature d = (inl (Transport (SPIIOError 5)), snd (raw_value d)) /\
  is_connected d = (inl (Transport (SPIIOError 5)), snd (raw_value d)) /\
  fst (raw_value (snd (raw_value d))) = inr 0x0C80.
Proof.
  cbv zeta.
  pose (w := fun k : nat =>
               if Nat.eqb k 0 then inl (SPIIOError 5) else inr [0x0C; 0x80]
               : spi_exn + list Z).
  pose (H := transport_error_propagates (mkSPI 0 w []) (SPIIOError 5) eq_refl).
  split; [exact (proj1 (proj2 H))|].
  split; [exact (proj1 (proj2 (proj2 H)))|].
  exact (proj2 (proj2 (proj2 (proj2 H))) [0x0C; 0x80] eq_refl).
Defined.

Lemma raw_value_error_cases (d d' : Max6675) (e : exn) :
  raw_value d = (inl e, d') ->
  (e = DeviceClosed /\ closed d = true) \/
  (exists t, e = Transport t /\ closed d = false).
Proof.
  intros H. destruct d as [[s|]].
  - rewrite (raw_value_open (mkMax6675 (Some s)) s eq_refl) in H.
    destruct (wire s (length (transfers s))) as [t|ws]; [|discriminate].
    right. exists t. split; [congruence | reflexivity].
  - rewrite (raw_value_closed (mkMax6675 None) eq_refl) in H.
    left. split; [congruence | reflexivity].
Qed.

Lemma words_to_int_range (ws : list Z) :
  0 <= _words_to_int ws < 2 ^ (8 * Z.of_nat (length ws)).
Proof.
  unfold _words_to_int.
  replace (2 ^ (8 * Z.of_nat (length ws)) - 1)
    with (Z.ones (8 * Z.of_nat (length ws)))
    by (rewrite Z.ones_equiv; lia).
  rewrite Z.land_ones by lia.
  apply Z.mod_pos_bound. apply Z.pow_pos_nonneg; lia.
Qed.

Lemma words_to_int_16_bits (ws : list Z) :
  (length ws <= 2)%nat -> 0 <= _words_to_int ws <= 0xFFFF.
Proof.
  intros Hlen. pose proof (words_to_int_range ws) as [H0 H1].
  assert (H2 : 2 ^ (8 * Z.of_nat (length ws)) <= 2 ^ 16)
    by (apply Z.pow_le_mono_r; lia).
  change (2 ^ 16) with 65536 in H2. lia.
Qed.

Lemma temperature_overflow_cases (d d' : Max6675) :
  temperature d = (inl OverflowError, d') ->
  exists s ws,
    _spi d = Some s /\
    wire s (length (transfers s)) = inr ws /\
    (2 < length ws)%nat.
Proof.
  intros Ht. destruct d as [[s|]].
  - pose proof (raw_value_open (mkMax6675 (Some s)) s eq_refl) as Hraw.
    destruct (wire s (length (transfers s))) as [t|ws] eqn:Hw.
    + rewrite (temperature_of_raw_error _ _ _ Hraw) in Ht. discriminate.
    + exists s, ws. split; [reflexivity|]. split; [exact Hw|].
      destruct (Nat.lt_ge_cases 2 (length ws)) as [|Hle]; [assumption|].
      rewrite (temperature_of_raw_16_bits _ _ _ Hraw) in Ht
        by now apply words_to_int_16_bits.
      destruct (truthy _); discriminate.
  - rewrite (temperature_of_raw_error _ _ _
               (raw_value_closed (mkMax6675 None) eq_refl)) in Ht.
    discriminate.
Qed.

(** X9: the guard comes before the read, so no operation ever fails on a
    missing transport with an [AttributeError]; an operation ends with
    [DeviceClosed] exactly when the device is closed; on an open device
    the only exceptions are those of the line, the thermocouple fault and
    [OverflowError]; and [OverflowError] comes from [temperature] alone,
    and only when the line answered more than the 2 words asked for. *)
Theorem exceptions_of_operations (d d' : Max6675) (e : exn) :
  raw_value d = (inl e, d') \/
  temperature d = (inl e, d') \/
  is_connected d = (inl e, d') ->
  e <> AttributeError /\
  (e = DeviceClosed <-> closed d = true) /\
  (closed d = false ->
   e = ThermocoupleError \/ e = OverflowError \/ exists t, e = Transport t) /\
  (e = OverflowError ->
   temperature d = (inl e, d') /\
   exists s ws,
     _spi d = Some s /\
     wire s (length (transfers s)) = inr ws /\
     (2 < length ws)%nat).
Proof.
  intros H.
  assert (Hcases : (e = DeviceClosed /\ closed d = true) \/
                   (exists t, e = Transport t /\ closed d = false) \/
                   (e = ThermocoupleError /\ closed d = false) \/
                   (e = OverflowError /\ closed d = false /\
                    temperature d = (inl e, d'))).
  { destruct (raw_value d) as [[e0|v] d0] eqn:Hraw.
    - assert (He : e = e0).
      { destruct H as [H|[H|H]].
        - congruence.
        - rewrite (temperature_of_raw_error _ _ _ Hraw) in H. congruence.
        - rewrite (is_connected_of_raw_error _ _ _ Hraw) in H. congruence. }
      subst e0.
      destruct (raw_value_error_cases d d0 e Hraw) as [Hc|Hc];
        [left | right; left]; exact Hc.
    - assert (Hopen : closed d = false).
      { destruct d as [[s|]]; [reflexivity|].
        rewrite (raw_value_closed (mkMax6675 None) eq_refl) in Hraw.
        discriminate. }
      destruct H as [H|[H|H]]; [discriminate| |].
      + pose proof H as Ht.
        rewrite (temperature_of_raw _ _ _ Hraw) in H.
        destruct (truthy (Z.land v 4)).
        * right. right. left. split; [congruence | exact Hopen].
        * destruct (PyFloat.int_mul_checked _ _); [discriminate|].
          right. right. right.
          split; [congruence|]. split; [exact Hopen | exact Ht].
      + rewrite (is_connected_of_raw _ _ _ Hraw) in H. discriminate. }
  destruct Hcases as [[-> Hc]|[(t & -> & Hc)|[[-> Hc]|(-> & Hc & Ht)]]].
  - split; [discriminate|]. split; [tauto|].
    split; [congruence | discriminate].
  - split; [discriminate|]. split; [split; [discriminate | congruence]|].
    split; [|discriminate].
    intros _. right. right. now exists t.
  - split; [discriminate|]. split; [split; [discriminate | congruence]|].
    split; [|discriminate].
    intros _. now left.
  - split; [discriminate|]. split; [split; [discriminate | congruence]|].
    split.
    + intros _. right. now left.
    + intros _. split; [exact Ht|].
      now apply (temperature_overflow_cases d d').
Qed.

Lemma exceptions_of_operations_witness :
  let d := open_on (steady [0x00; 0x04]) in
  temperature d = (inl ThermocoupleError, snd (raw_value d)) /\
  ThermocoupleError <> AttributeError /\
  (ThermocoupleError = DeviceClosed <-> closed d = true) /\
  (closed d = false ->
   ThermocoupleError = ThermocoupleError \/
   ThermocoupleError = OverflowError \/
   exists t, ThermocoupleError = Transport t).
Proof.
  cbv zeta. split; [reflexivity|].
  pose (H := exceptions_of_operations
               (open_on (steady [0x00; 0x04]))
               (snd (raw_value (open_on (steady [0x00; 0x04]))))
               ThermocoupleError (or_intror (or_introl eq_refl))).
  split; [exact (proj1 H)|]. split; [exact (proj1 (proj2 H))|].
  exact (proj1 (proj2 (proj2 H))).
Defined.

(** ** The two queries on one state *)

(** X10: read from the same state, [temperature] and [is_connected] have
    the effect of [raw_value] and nothing more, and they agree:
    [is_connected] is [False] exactly when [temperature] raises
    [ThermocoupleError]; it is [True] exactly when [temperature] returns a
    value or raises [OverflowError]; it raises exactly the other
    exceptions [temperature] raises.  On a 16-bit reading [temperature]
    does not raise [OverflowError], so [is_connected] is [True] exactly
    when [temperature] returns a value. *)
Theorem queries_agree (d : Max6675) :
  snd (temperature d) = snd (raw_value d) /\
  snd (is_connected d) = snd (raw_value d) /\
  (fst (is_connected d) = inr true <->
   (exists c, fst (temperature d) = inr c) \/
   fst (temperature d) = inl OverflowError) /\
  (fst (is_connected d) = inr false <->
   fst (temperature d) = inl ThermocoupleError) /\
  (forall e,
     fst (is_connected d) = inl e <->
     fst (temperature d) = inl e /\
     e <> ThermocoupleError /\ e <> OverflowError) /\
  (forall v,
     fst (raw_value d) = inr v ->
     0 <= v <= 0xFFFF ->
     fst (temperature d) <> inl OverflowError /\
     (fst (is_connected d) = inr true <->
      exists c, fst (temperature d) = inr c)).
Proof.
  pose proof (raw_value_no_fault d) as Hnf.
  destruct (raw_value d) as [[e0|v] d0] eqn:Hraw.
  - rewrite (temperature_of_raw_error _ _ _ Hraw).
    rewrite (is_connected_of_raw_error _ _ _ Hraw). cbn [fst snd].
    assert (He0 : e0 <> ThermocoupleError).
    { intros ->. discriminate Hnf. }
    assert (He1 : e0 <> OverflowError).
    { intros ->.
      destruct (raw_value_error_cases d d0 _ Hraw) as [[H _]|(t & H & _)];
        discriminate. }
    split; [reflexivity|]. split; [reflexivity|].
    split; [|split; [|split]].
    + split; [discriminate|].
      intros [(c & Hc)|Hc]; [discriminate | congruence].
    + split; [discriminate | congruence].
    + intros e. split.
      * intros H. injection H as <-. now split.
      * intros [H _]. injection H as <-. reflexivity.
    + intros v H. discriminate.
  - rewrite (is_connected_of_raw _ _ _ Hraw). cbn [fst snd].
    assert (H16 : 0 <= v <= 0xFFFF ->
                  temperature d =
                  if truthy (Z.land v 4) then (inl ThermocoupleError, d0)
                  else (inr (PyFloat.int_mul (Z.shiftr v 3) PyFloat.quarter),
                        d0)).
    { now apply temperature_of_raw_16_bits. }
    rewrite (temperature_of_raw _ _ _ Hraw) in *. unfold truthy in *.
    destruct (Z.land v 4 =? 0); cbn [negb] in *.
    + destruct (PyFloat.int_mul_checked _ _) as [c|]; cbn [fst snd].
      * split; [reflexivity|]. split; [reflexivity|].
        split; [|split; [|split]].
        -- split; [intros _; left; now exists c | reflexivity].
        -- split; discriminate.
        -- intros e. split; [discriminate | intros [H _]; discriminate H].
        -- intros v' _ _. split; [discriminate|].
           split; [intros _; now exists c | reflexivity].
      * split; [reflexivity|]. split; [reflexivity|].
        split; [|split; [|split]].
        -- split; [intros _; now right | reflexivity].
        -- split; discriminate.
        -- intros e. split; [discriminate|].
           intros (H & _ & Hne). congruence.
        -- intros v' Hv' Hr. injection Hv' as <-.
           specialize (H16 Hr). discriminate H16.
    + cbn [fst snd].
      split; [reflexivity|]. split; [reflexivity|].
      split; [|split; [|split]].
      * split; [discriminate|].
        intros [(c & Hc)|Hc]; discriminate.
      * split; reflexivity.
      * intros e. split; [discriminate|].
        intros (H1 & H2 & _). congruence.
      * intros v' _ _. split; [discriminate|].
        split; [discriminate | intros (c & Hc); discriminate].
Qed.

Lemma queries_agree_witness :
  let d := open_on (steady [0x0C; 0x80]) in
  fst (raw_value d) = inr 0x0C80 /\
  0 <= 0x0C80 <= 0xFFFF /\
  fst (temperature d) <> inl OverflowError /\
  (fst (is_connected d) = inr true <-> exists c, fst (temperature d) = inr c).
Proof.
  cbv zeta.
  assert (Hv : 0 <= 0x0C80 <= 0xFFFF) by lia.
  split; [reflexivity|]. split; [exact Hv|].
  exact (proj2 (proj2 (proj2 (proj2 (proj2
           (queries_agree (open_on (steady [0x0C; 0x80])))))))
           0x0C80 eq_refl Hv).
Defined.

(** ** Polling *)

Lemma run_query_open (q : query) (s : SPI) :
  run_query q (mkMax6675 (Some s)) =
  mkMax6675 (Some (snd (SPIInterface.read 2 s))).
Proof.
  destruct q; cbn [run_query].
  - now rewrite (raw_value_open (mkMax6675 (Some s)) s eq_refl).
  - apply temperature_state.
  - apply is_connected_state.
Qed.

Lemma run_query_closed (q : query) (d : Max6675) :
  closed d = true -> run_query q d = d.
Proof.
  intros Hc.
  assert (Hraw : raw_value d = (inl DeviceClosed, d)).
  { apply raw_value_closed. unfold closed in Hc.
    destruct (_spi d); [discriminate | reflexivity]. }
  destruct q; cbn [run_query].
  - now rewrite Hraw.
  - now rewrite (temperature_of_raw_error _ _ _ Hraw).
  - now rewrite (is_connected_of_raw_error _ _ _ Hraw).
Qed.

Lemma run_queries_open (qs : list query) (s : SPI) :
  run_queries qs (mkMax6675 (Some s)) =
  mkMax6675 (Some (mkSPI (clock_mode s) (wire s)
                     (transfers s ++ repeat 2%nat (length qs)))).
Proof.
  revert s. induction qs as [|q qs IH]; intros s.
  - cbn. rewrite app_nil_r. now destruct s.
  - cbn [run_queries length repeat]. rewrite run_query_open, IH.
    cbn [SPIInterface.read snd clock_mode wire transfers].
    now rewrite <- app_assoc.
Qed.

Lemma run_queries_closed (qs : list query) (d : Max6675) :
  closed d = true -> run_queries qs d = d.
Proof.
  intros Hc. induction qs as [|q qs IH]; [reflexivity|].
  cbn [run_queries]. now rewrite run_query_closed.
Qed.

Lemma outcomes_follow_raw (d1 d2 : Max6675) :
  fst (raw_value d1) = fst (raw_value d2) ->
  fst (temperature d1) = fst (temperature d2) /\
  fst (is_connected d1) = fst (is_connected d2).
Proof.
  intros H.
  destruct (raw_value d1) as [[e1|v1] d1'] eqn:H1;
    destruct (raw_value d2) as [[e2|v2] d2'] eqn:H2;
    cbn [fst] in H; try discriminate.
  - injection H as <-.
    rewrite (temperature_of_raw_error _ _ _ H1).
    rewrite (temperature_of_raw_error _ _ _ H2).
    rewrite (is_connected_of_raw_error _ _ _ H1).
    rewrite (is_connected_of_raw_error _ _ _ H2). split; reflexivity.
  - injection H as <-.
    rewrite (temperature_of_raw _ _ _ H1), (temperature_of_raw _ _ _ H2).
    rewrite (is_connected_of_raw _ _ _ H1), (is_connected_of_raw _ _ _ H2).
    split; [|reflexivity].
    destruct (truthy _); [reflexivity|].
    now destruct (PyFloat.int_mul_checked _ _).
Qed.

(** X11: however many properties are read on an open device, in whatever
    order and whatever each read ends with, every read accounts for exactly
    one transfer of 2 words, the device stays open, and neither the clock
    mode nor the line is touched. *)
Theorem polling_transfers (qs : list query) (s : SPI) :
  exists s',
    _spi (run_queries qs (mkMax6675 (Some s))) = Some s' /\
    transfers s' = transfers s ++ repeat 2%nat (length qs) /\
    SPIInterface.transactions s' =
      (SPIInterface.transactions s + length qs)%nat /\
    clock_mode s' = clock_mode s /\
    wire s' = wire s.
Proof.
  rewrite run_queries_open. eexists. split; [reflexivity|].
  cbn [transfers clock_mode wire]. split; [reflexivity|].
  split; [|split; reflexivity].
  unfold SPIInterface.transactions. cbn [transfers].
  now rewrite length_app, repeat_length.
Qed.

(** X12: no property read opens or closes the device: after any reads it
    is closed exactly if it was closed before, and a device that has been
    closed is left exactly as [close] left it. *)
Theorem reads_keep_lifecycle (qs : list query) (d : Max6675) :
  closed (run_queries qs d) = closed d /\
  run_queries qs (close d) = close d.
Proof.
  split.
  - destruct d as [[s|]].
    + now rewrite run_queries_open.
    + now rewrite run_queries_closed.
  - now apply run_queries_closed.
Qed.

(** X13: the driver keeps nothing from one read to the next: on a line
    that gives the same answer to every transfer, each property gives the
    same outcome after any number of earlier reads as on the first
    read. *)
Theorem steady_line_same_outcome
    (s : SPI) (r : spi_exn + list Z) (qs : list query) :
  (forall k, wire s k = r) ->
  let d := mkMax6675 (Some s) in
  fst (raw_value (run_queries qs d)) = fst (raw_value d) /\
  fst (temperature (run_queries qs d)) = fst (temperature d) /\
  fst (is_connected (run_queries qs d)) = fst (is_connected d).
Proof.
  intros Hw d.
  assert (Hraw : fst (raw_value (run_queries qs d)) = fst (raw_value d)).
  { unfold d. rewrite run_queries_open.
    set (s' := mkSPI (clock_mode s) (wire s)
                 (transfers s ++ repeat 2%nat (length qs))).
    rewrite (raw_value_open (mkMax6675 (Some s')) s' eq_refl).
    rewrite (raw_value_open (mkMax6675 (Some s)) s eq_refl).
    unfold s'.
    cbn [fst wire transfers]. now rewrite !Hw. }
  split; [exact Hraw|]. now apply outcomes_follow_raw.
Qed.

Lemma steady_line_same_outcome_witness :
  let d := open_on (steady [0x0C; 0x80]) in
  let qs := [Connected; Temperature; Raw] in
  fst (raw_value (run_queries qs d)) = fst (raw_value d) /\
  fst (temperature (run_queries qs d)) = fst (temperature d) /\
  fst (is_connected (run_queries qs d)) = fst (is_connected d).
Proof.
  cbv zeta.
  exact (steady_line_same_outcome
           (mkSPI 0 (steady [0x0C; 0x80]) []) (inr [0x0C; 0x80])
           [Connected; Temperature; Raw] (fun k => eq_refl)).
Defined.

(** X14: a device that has been constructed is open and stays in clock
    mode 0 through any reads that follow, whatever the keyword arguments
    and whatever the reads end with. *)
Theorem constructed_device_keeps_mode_0
    (spi_args : Type) (SPIDevice_init : spi_args -> exn + Max6675)
    (args : spi_args) (self : Max6675) (qs : list query) :
  __init__ spi_args SPIDevice_init args = inr self ->
  exists s,
    _spi (run_queries qs self) = Some s /\
    clock_mode s = 0 /\
    closed (run_queries qs self) = false.
Proof.
  unfold __init__, set_clock_mode. intros H.
  destruct (SPIDevice_init args) as [e|[[s0|]]]; cbn in H; try discriminate.
  injection H as <-. rewrite run_queries_open.
  eexists. split; [reflexivity|]. split; reflexivity.
Qed.

Lemma constructed_device_keeps_mode_0_witness :
  let base := fun mode : Z =>
    inr (mkMax6675 (Some (mkSPI mode (steady [0x00; 0x04]) []))) : exn + Max6675 in
  let self := open_on (steady [0x00; 0x04]) in
  let qs := [Temperature; Connected] in
  __init__ Z base 3 = inr self /\
  exists s,
    _spi (run_queries qs self) = Some s /\
    clock_mode s = 0 /\
    closed (run_queries qs self) = false.
Proof.
  cbv zeta.
  pose (base := fun mode : Z =>
    inr (mkMax6675 (Some (mkSPI mode (steady [0x00; 0x04]) [])))
    : exn + Max6675).
  split; [reflexivity|].
  exact (constructed_device_keeps_mode_0 Z base 3
           (open_on (steady [0x00; 0x04])) [Temperature; Connected] eq_refl).
Defined.
